(** * Rankine earth-pressure coefficients: a model of [src/app.py]

    The program is one numeric function, [rankine_earth_pressures], and a
    Shiny server that renders its three outputs with four decimals.

    The function is modelled three times, each model for what it can say.

    - Over the real numbers ([R]): Python floats are read as reals.  What is
      kept from the Python semantics is the control flow: [/] on floats
      raises [ZeroDivisionError] when the divisor is zero, and the three
      assignments run in source order, so an exception in [Ka] or [Kp]
      leaves no dictionary behind.  Statements over all angles of an
      interval are proved here.
    - As the interpreter runs it ([frame]): the same body with its name
      lookups, its local variables and the state each step leaves.
    - Over binary64 ([b64]): the same body with the machine's rounding.
      It runs, so it settles what the program returns at a given input. *)

From Stdlib Require Import PrimFloat SpecFloat FloatOps Uint63.
From Stdlib Require Import Reals Lra Lia ZArith String List.
From Stdlib Require Import DecimalString DecimalZ.
Import ListNotations.

Local Open Scope R_scope.

(** ** The fragment of the Python runtime the program uses *)

Module Py.

(** Exceptions the modelled code can raise. *)
Inductive exn : Set :=
| ZeroDivisionError.

(** A call either raises or returns a value. *)
Definition result (A : Type) : Type := (exn + A)%type.

Definition ret {A : Type} (a : A) : result A := inr a.

Definition raise {A : Type} (e : exn) : result A := inl e.

Definition bind {A B : Type} (c : result A) (k : A -> result B) : result B :=
  match c with
  | inl e => inl e
  | inr a => k a
  end.

(** [a / b] on floats: "float division by zero" when [b] is zero. *)
Definition truediv (a b : R) : result R :=
  if Req_dec_T b 0 then raise ZeroDivisionError else ret (a / b).

End Py.

Notation "x <- c ;; k" := (Py.bind c (fun x => k))
  (at level 61, c at next level, right associativity).

(** The two functions of the [math] module that are called. *)
Module math.

(** [math.radians(x)] is [x * (pi / 180)]. *)
Definition radians (x : R) : R := x * (PI / 180).

Definition sin (x : R) : R := Rtrigo_def.sin x.

End math.

(** ** The calculator *)

(** The returned dictionary [{"Ka": Ka, "Kp": Kp, "Ko": Ko}]: three fixed
    string keys, read with [d['Ka']] and so on. *)
Record coefficients : Type := mk_coefficients {
  Ka : R;
  Kp : R;
  Ko : R
}.

Definition rankine_earth_pressures (phi_deg : R) : Py.result coefficients :=
  let phi_rad := math.radians phi_deg in
  ka <- Py.truediv (1 - math.sin phi_rad) (1 + math.sin phi_rad) ;;
  kp <- Py.truediv (1 + math.sin phi_rad) (1 - math.sin phi_rad) ;;
  let ko := 1 - math.sin phi_rad in
  Py.ret {| Ka := ka; Kp := kp; Ko := ko |}.

(** ** The display layer

    The server renders each coefficient with [f"{x:.4f}"]: the decimal
    expansion with four fractional digits nearest to the value, ties to the
    even last digit, and a leading minus sign for negative values. *)

(** Nearest integer to a non-negative real, ties to even. *)
Definition round_half_even (y : R) : Z :=
  let n := Int_part y in
  let f := frac_part y in
  if Rlt_dec f (1 / 2) then n
  else if Rlt_dec (1 / 2) f then (n + 1)%Z
  else if Z.even n then n else (n + 1)%Z.

Definition decimal (n : Z) : string :=
  NilZero.string_of_uint (N.to_uint (Z.to_N n)).

(** The text of a sign and a count [m] of ten-thousandths. *)
Definition fixed4 (negative : bool) (m : Z) : string :=
  ((if negative then "-" else "") ++
   decimal (m / 10000) ++ "." ++
   decimal (m / 1000 mod 10) ++ decimal (m / 100 mod 10) ++
   decimal (m / 10 mod 10) ++ decimal (m mod 10))%string.

Definition format_4f (x : R) : string :=
  fixed4 (if Rlt_dec x 0 then true else false)
         (round_half_even (Rabs x * 10000)).

(** ** The server *)

(** [get_coefficients] is the reactive calculation on the slider value. *)
Definition get_coefficients (input_phi : R) : Py.result coefficients :=
  rankine_earth_pressures input_phi.

Definition ka_value (input_phi : R) : Py.result string :=
  c <- get_coefficients input_phi ;; Py.ret (format_4f (Ka c)).

Definition ko_value (input_phi : R) : Py.result string :=
  c <- get_coefficients input_phi ;; Py.ret (format_4f (Ko c)).

Definition kp_value (input_phi : R) : Py.result string :=
  c <- get_coefficients input_phi ;; Py.ret (format_4f (Kp c)).

(** [str(n)] for a Python int: decimal digits, with a minus sign for a
    negative number. *)
Definition str_int (n : Z) : string :=
  NilZero.string_of_int (Z.to_int n).

(** The label above the value boxes.  The slider delivers a Python int; the
    text is held as the bytes of its UTF-8 encoding. *)
Definition explanation (input_phi : Z) : string :=
  ("Results for soil with φ = " ++ str_int input_phi ++ "°:")%string.

(** ** The input widget

    [ui.input_slider("phi", ..., min=0, max=45, value=30, step=1)]. *)
Record input_slider : Type := mk_input_slider {
  slider_min : Z;
  slider_max : Z;
  slider_value : Z;
  slider_step : Z
}.

Definition phi_slider : input_slider :=
  {| slider_min := 0; slider_max := 45; slider_value := 30; slider_step := 1 |}.

(** ** The interpreter's view of a call

    The same function body, statement by statement, as the interpreter runs
    it: names are looked up in the module's globals and in the attributes
    of the [math] module at the moment of each use, local variables live in
    the frame of the call, and every step returns the state it leaves
    behind.  Numbers are the reals of the model above. *)

Module frame.

Local Open Scope string_scope.

Inductive builtin : Set :=
| math_radians
| math_sin.

Unset Elimination Schemes.

Inductive value : Type :=
| VInt (n : Z)
| VFloat (x : R)
| VModule_math
| VBuiltin (b : builtin)
| VDict (items : list (string * value)).

Set Elimination Schemes.

Inductive exn : Set :=
| NameError
| AttributeError
| TypeError
| ZeroDivisionError.

Definition namespace : Type := list (string * value).

Fixpoint lookup (name : string) (ns : namespace) : option value :=
  match ns with
  | [] => None
  | (k, v) :: rest => if String.eqb name k then Some v else lookup name rest
  end.

(** The globals of the application module, the attributes of the [math]
    module object, and the local variables of the running frame. *)
Record state : Type := mk_state {
  globals : namespace;
  math_dict : namespace;
  locals : namespace
}.

Definition M (A : Type) : Type := state -> (exn + A) * state.

Definition ret {A : Type} (a : A) : M A := fun s => (inr a, s).

Definition raise {A : Type} (e : exn) : M A := fun s => (inl e, s).

Definition bind {A B : Type} (c : M A) (k : A -> M B) : M B :=
  fun s =>
    match c s with
    | (inl e, s') => (inl e, s')
    | (inr a, s') => k a s'
    end.

Declare Scope frame_scope.

Notation "x <- c ;; k" := (bind c (fun x => k))
  (at level 61, c at next level, right associativity) : frame_scope.

Local Open Scope frame_scope.

Definition load_global (name : string) : M value :=
  fun s =>
    match lookup name (globals s) with
    | Some v => (inr v, s)
    | None => (inl NameError, s)
    end.

Definition load_attr (obj : value) (name : string) : M value :=
  fun s =>
    match obj with
    | VModule_math =>
        match lookup name (math_dict s) with
        | Some v => (inr v, s)
        | None => (inl AttributeError, s)
        end
    | _ => (inl AttributeError, s)
    end.

Definition load_fast (name : string) : M value :=
  fun s =>
    match lookup name (locals s) with
    | Some v => (inr v, s)
    | None => (inl NameError, s)
    end.

Definition store_fast (name : string) (v : value) : M unit :=
  fun s =>
    (inr tt,
     {| globals := globals s; math_dict := math_dict s;
        locals := (name, v) :: locals s |}).

(** The float a number stands for; an int is converted. *)
Definition as_float (v : value) : M R :=
  match v with
  | VInt n => ret (IZR n)
  | VFloat x => ret x
  | _ => raise TypeError
  end.

Definition call (f arg : value) : M value :=
  match f with
  | VBuiltin math_radians => x <- as_float arg ;; ret (VFloat (math.radians x))
  | VBuiltin math_sin => x <- as_float arg ;; ret (VFloat (math.sin x))
  | _ => raise TypeError
  end.

Definition binary_add (a b : value) : M value :=
  match a, b with
  | VInt m, VInt n => ret (VInt (m + n))
  | _, _ => x <- as_float a ;; y <- as_float b ;; ret (VFloat (x + y))
  end.

Definition binary_subtract (a b : value) : M value :=
  match a, b with
  | VInt m, VInt n => ret (VInt (m - n))
  | _, _ => x <- as_float a ;; y <- as_float b ;; ret (VFloat (x - y))
  end.

Definition true_divide (a b : value) : M value :=
  x <- as_float a ;; y <- as_float b ;;
  match Py.truediv x y with
  | inl Py.ZeroDivisionError => raise ZeroDivisionError
  | inr q => ret (VFloat q)
  end.

(** [math.<attr>(<local>)] *)
Definition math_call (attr local : string) : M value :=
  m <- load_global "math" ;;
  f <- load_attr m attr ;;
  a <- load_fast local ;;
  call f a.

Definition rankine_earth_pressures : M value :=
  phi_rad <- math_call "radians" "phi_deg" ;;
  _ <- store_fast "phi_rad" phi_rad ;;
  s <- math_call "sin" "phi_rad" ;;
  n <- binary_subtract (VInt 1) s ;;
  s <- math_call "sin" "phi_rad" ;;
  d <- binary_add (VInt 1) s ;;
  q <- true_divide n d ;;
  _ <- store_fast "Ka" q ;;
  s <- math_call "sin" "phi_rad" ;;
  n <- binary_add (VInt 1) s ;;
  s <- math_call "sin" "phi_rad" ;;
  d <- binary_subtract (VInt 1) s ;;
  q <- true_divide n d ;;
  _ <- store_fast "Kp" q ;;
  s <- math_call "sin" "phi_rad" ;;
  ko <- binary_subtract (VInt 1) s ;;
  _ <- store_fast "Ko" ko ;;
  ka <- load_fast "Ka" ;;
  kp <- load_fast "Kp" ;;
  ko <- load_fast "Ko" ;;
  ret (VDict [("Ka", ka); ("Kp", kp); ("Ko", ko)]).

(** A call: a fresh frame holding the argument, the body, and the caller's
    frame restored whether the body returned or raised. *)
Definition call_function (arg : value) (s : state) : (exn + value) * state :=
  let callee :=
    {| globals := globals s; math_dict := math_dict s;
       locals := [("phi_deg", arg)] |} in
  match rankine_earth_pressures callee with
  | (r, s') =>
      (r, {| globals := globals s'; math_dict := math_dict s';
             locals := locals s |})
  end.

(** One call after another, each on the state the previous one left. *)
Fixpoint run_calls (args : list value) (s : state)
  : list (exn + value) * state :=
  match args with
  | [] => ([], s)
  | a :: rest =>
      match call_function a s with
      | (r, s') =>
          match run_calls rest s' with
          | (rs, s'') => (r :: rs, s'')
          end
      end
  end.

(** The real number an argument stands for, when it is a number. *)
Definition number (v : value) : option R :=
  match v with
  | VInt n => Some (IZR n)
  | VFloat x => Some x
  | _ => None
  end.

(** [import math] has run and nothing has rebound the three names since. *)
Definition imports_intact (s : state) : Prop :=
  lookup "math" (globals s) = Some VModule_math /\
  lookup "radians" (math_dict s) = Some (VBuiltin math_radians) /\
  lookup "sin" (math_dict s) = Some (VBuiltin math_sin).

(** The state right after [import math], and a state later in a session:
    more globals, more attributes, a caller with locals of its own. *)
Definition after_import : state :=
  {| globals := [("math", VModule_math)];
     math_dict := [("radians", VBuiltin math_radians); ("sin", VBuiltin math_sin)];
     locals := [] |}.

Definition in_session : state :=
  {| globals := [("app", VInt 0); ("math", VModule_math)];
     math_dict := [("sin", VBuiltin math_sin); ("pi", VFloat PI);
                   ("radians", VBuiltin math_radians)];
     locals := [("phi", VInt 30)] |}.

(** The outcome of the pure model, as the interpreter's value. *)
Definition outcome (r : Py.result coefficients) : exn + value :=
  match r with
  | inl Py.ZeroDivisionError => inl ZeroDivisionError
  | inr c =>
      inr (VDict [("Ka", VFloat (Ka c)); ("Kp", VFloat (Kp c));
                  ("Ko", VFloat (Ko c))])
  end.

End frame.

(** ** The arithmetic as executed: binary64

    The calculator again, over IEEE-754 binary64 values with the machine's
    rounding, which is what the interpreter computes.  [+], [-], [*] and [/]
    are the processor's operations.  [math.sin] is the C library's [sin],
    which is not part of the repository: it is taken here to return the
    binary64 value nearest to the sine of its argument.  C libraries
    deliver that value except, rarely, its neighbour in the last digit. *)

Module b64.

Local Open Scope float_scope.

Inductive exn : Set :=
| ZeroDivisionError
| ValueError.

Definition result (A : Type) : Type := (exn + A)%type.

Definition ret {A : Type} (a : A) : result A := inr a.

Definition raise {A : Type} (e : exn) : result A := inl e.

Definition bind {A B : Type} (c : result A) (k : A -> result B) : result B :=
  match c with
  | inl e => inl e
  | inr a => k a
  end.

Declare Scope b64_scope.

Notation "x <- c ;; k" := (bind c (fun x => k))
  (at level 61, c at next level, right associativity) : b64_scope.

Local Open Scope b64_scope.

(** [a / b]: "float division by zero" when [b] is [0.0] or [-0.0]. *)
Definition truediv (a b : float) : result float :=
  if b =? 0 then raise ZeroDivisionError else ret (a / b).

(** [math.pi], and [math.radians(x)], which is [x * (pi / 180.0)]. *)
Definition pi : float := 0x1.921fb54442d18p+1.

Definition radians (x : float) : float := x * (pi / 180).

(** *** The sine, in fixed point

    Integers stand for reals scaled by [2 ^ p]. *)

(** [atan (1 / n)]: the alternating series of [1 / ((2 k + 1) n ^ (2 k + 1))]. *)
Fixpoint atan_inv_series (fuel : nat) (n2 pw k : Z) (neg : bool) (acc : Z) : Z :=
  match fuel with
  | O => acc
  | S fuel' =>
      if (pw =? 0)%Z then acc
      else
        let t := (pw / (2 * k + 1))%Z in
        atan_inv_series fuel' n2 (pw / n2)%Z (k + 1)%Z (negb neg)
          (if neg then acc - t else acc + t)%Z
  end.

Definition atan_inv (p n : Z) : Z :=
  atan_inv_series 1000 (n * n)%Z (2 ^ p / n)%Z 0%Z false 0%Z.

Definition pi_bits : Z := 1400.

(** Machin: [pi = 16 atan (1/5) - 4 atan (1/239)]. *)
Definition pi_fix : Z :=
  Eval vm_compute in (16 * atan_inv pi_bits 5 - 4 * atan_inv pi_bits 239)%Z.

(** The alternating series with first term [t], each term the previous one
    times [y2 / ((k + 1) (k + 2))]: the sine from [t = y], [k = 1] and the
    cosine from [t = 1], [k = 0], with [y2] the square of [y]. *)
Fixpoint alt_series (fuel : nat) (p y2 t k : Z) (neg : bool) (acc : Z) : Z :=
  match fuel with
  | O => acc
  | S fuel' =>
      if (t =? 0)%Z then acc
      else
        let t' := (Z.shiftr (t * y2) p / ((k + 1) * (k + 2)))%Z in
        alt_series fuel' p y2 t' (k + 2)%Z (negb neg)
          (if neg then acc + t' else acc - t')%Z
  end.

Definition sin_fix (p y : Z) : Z :=
  let a := Z.abs y in
  let v := alt_series 400 p (Z.shiftr (a * a) p) a 1 false a in
  if (y <? 0)%Z then (- v)%Z else v.

Definition cos_fix (p y : Z) : Z :=
  let a := Z.abs y in
  alt_series 400 p (Z.shiftr (a * a) p) (Z.shiftl 1 p) 0 false (Z.shiftl 1 p).

(** The binary64 value nearest to [v / 2 ^ p], ties to even. *)
Definition round_to_float (p v : Z) : float :=
  let a := Z.abs v in
  if (a =? 0)%Z then 0
  else
    let sh := (Z.log2 a + 1 - 53)%Z in
    let q := Z.shiftr a sh in
    let r := (a - Z.shiftl q sh)%Z in
    let half := Z.shiftl 1 (sh - 1) in
    let q' := if (half <? r)%Z then (q + 1)%Z
              else if (r =? half)%Z then (if Z.even q then q else (q + 1)%Z)
              else q in
    SF2Prim (S754_finite (v <? 0)%Z (Z.to_pos q') (sh - p)).

(** The sine of [+- m * 2 ^ e]: the argument less the nearest multiple [k]
    of [pi / 2], then the sine or the cosine of what is left. *)
Definition sin_finite (neg : bool) (m : positive) (e : Z) : float :=
  let p := (192 + Z.abs (e + 53))%Z in
  let pi_p := Z.shiftr pi_fix (pi_bits - p) in
  let x := Z.shiftl (Z.pos m) (e + p) in
  let k := ((4 * x + pi_p) / (2 * pi_p))%Z in
  let y := Z.quot (2 * x - k * pi_p) 2 in
  let v := match (k mod 4)%Z with
           | 0%Z => sin_fix p y
           | 1%Z => cos_fix p y
           | 2%Z => (- sin_fix p y)%Z
           | _ => (- cos_fix p y)%Z
           end in
  round_to_float p (if neg then (- v)%Z else v).

(** [math.sin(x)]: "math domain error" for an infinity, NaN for a NaN, and
    the argument itself below [2 ^ -26], where it is the nearest value. *)
Definition sin (x : float) : result float :=
  match Prim2SF x with
  | S754_nan => ret x
  | S754_infinity _ => raise ValueError
  | S754_zero _ => ret x
  | S754_finite neg m e =>
      if abs x <? 0x1p-26 then ret x else ret (sin_finite neg m e)
  end.

(** *** The calculator *)

Record coefficients : Type := mk_coefficients {
  Ka : float;
  Kp : float;
  Ko : float
}.

Definition rankine_earth_pressures (phi_deg : float) : result coefficients :=
  let phi_rad := radians phi_deg in
  s1 <- sin phi_rad ;;
  s2 <- sin phi_rad ;;
  ka <- truediv (1 - s1) (1 + s2) ;;
  s3 <- sin phi_rad ;;
  s4 <- sin phi_rad ;;
  kp <- truediv (1 + s3) (1 - s4) ;;
  s5 <- sin phi_rad ;;
  let ko := 1 - s5 in
  ret {| Ka := ka; Kp := kp; Ko := ko |}.

(** The float of a Python int of moderate size (below [2 ^ 53] in
    magnitude the conversion is exact). *)
Definition float_of_int (n : Z) : float :=
  if (n <? 0)%Z then - of_uint63 (Uint63.of_Z (- n)) else of_uint63 (Uint63.of_Z n).

(** *** The slider's outputs

    The record the calculator returns at each of the slider's 46 positions,
    0 to 45 degrees, in binary64 (hexadecimal notation). *)
Definition slider_table : list coefficients :=
  [ mk_coefficients 0x1p+0 0x1p+0 0x1p+0;
    mk_coefficients 0x1.ee6f6eaad32d2p-1 0x1.09182758f60d2p+0 0x1.f7107a6a3b117p-1;
    mk_coefficients 0x1.dd77d2f389897p-1 0x1.1283c31bf1ba1p+0 0x1.ee21a7360823ep-1;
    mk_coefficients 0x1.cd12c270c555ep-1 0x1.1c469e547a323p+0 0x1.e53438b71036fp-1;
    mk_coefficients 0x1.bd3a2a24e28ebp-1 0x1.2664bd1a02853p+0 0x1.dc48e1252b5dbp-1;
    mk_coefficients 0x1.ade84903396fdp-1 0x1.30e2609b2f982p+0 0x1.d360528e7afep-1;
    mk_coefficients 0x1.9f17aadb349d5p-1 0x1.3bc40b7ff01f5p+0 0x1.ca7b3ec987512p-1;
    mk_coefficients 0x1.90c323a0e0ddp-1 0x1.470e86aad15aep+0 0x1.c19a5767613a6p-1;
    mk_coefficients 0x1.82e5cb0b5facbp-1 0x1.52c6e662e93c2p+0 0x1.b8be4da5c987ap-1;
    mk_coefficients 0x1.757af88255bc9p-1 0x1.5ef28ff0ba149p+0 0x1.afe7d2615eb23p-1;
    mk_coefficients 0x1.687e3f540c8fdp-1 0x1.6b973fb9a10e1p+0 0x1.a7179607d231ep-1;
    mk_coefficients 0x1.5beb6b2e8d316p-1 0x1.78bb0fe6b4255p+0 0x1.9e4e488a2676cp-1;
    mk_coefficients 0x1.4fbe7cd67aa95p-1 0x1.86647fa573a0bp+0 0x1.958c994ef69c2p-1;
    mk_coefficients 0x1.43f3a716e728bp-1 0x1.949a7b12645eap+0 0x1.8cd33724c8e63p-1;
    mk_coefficients 0x1.38874be5c8155p-1 0x1.a36463df9313ep+0 0x1.8422d0346d1b9p-1;
    mk_coefficients 0x1.2d75f9b90c4f9p-1 0x1.b2ca1acb2d2dcp+0 0x1.7b7c11f367cb8p-1;
    mk_coefficients 0x1.22bc6908ae549p-1 0x1.c2d409fcd464ap+0 0x1.72dfa9166b8ecp-1;
    mk_coefficients 0x1.185779fa6a1e4p-1 0x1.d38b3063218f3p+0 0x1.6a4e4183e151cp-1;
    mk_coefficients 0x1.0e44323405ac2p-1 0x1.e4f92e2dff6edp+0 0x1.61c8864680b58p-1;
    mk_coefficients 0x1.047fbad15bab9p-1 0x1.f72852862ea6dp+0 0x1.594f217ff9912p-1;
    mk_coefficients 0x1.f60ebcf724e2cp-2 0x1.0511d553399bap+1 0x1.50e2bc5bafa06p-1;
    mk_coefficients 0x1.e3b10f3e3dc4p-2 0x1.0efb893fdbb27p+1 0x1.4883ff0189662p-1;
    mk_coefficients 0x1.d1e17d7cc7416p-2 0x1.1957a38b78a3ep+1 0x1.40339088d34cp-1;
    mk_coefficients 0x1.c09b51bdd27c6p-2 0x1.242cfd68f6c16p+1 0x1.37f216eb3802ap-1;
    mk_coefficients 0x1.afda0c1ea961dp-2 0x1.2f82f5f7b727ep+1 0x1.2fc036f7cf298p-1;
    mk_coefficients 0x1.9f996008ccbb8p-2 0x1.3b617eb7be3d8p+1 0x1.279e9446433d6p-1;
    mk_coefficients 0x1.8fd53196dbb6ep-2 0x1.47d1295d4504cp+1 0x1.1f8dd12a0fd1cp-1;
    mk_coefficients 0x1.808993217b12p-2 0x1.54db3730ac17cp+1 0x1.178e8ea5d91p-1;
    mk_coefficients 0x1.71b2c2f18ae86p-2 0x1.6289aa2e5d891p+1 0x1.0fa16c5edd7c4p-1;
    mk_coefficients 0x1.634d29152e05dp-2 0x1.70e75821d5bfep+1 0x1.07c7089082f8ap-1;
    mk_coefficients 0x1.5555555555555p-2 0x1.8p+1 0x1p-1;
    mk_coefficients 0x1.47c7fd49adc1p-2 0x1.8fe061cf8fbc1p+1 0x1.f099dbe0441dap-2;
    mk_coefficients 0x1.3aa1fa88f7016p-2 0x1.a096597a4efb3p+1 0x1.e15cd82a645acp-2;
    mk_coefficients 0x1.2de048f3eeccfp-2 0x1.b230fcf0d6d74p+1 0x1.d24a2511f11c6p-2;
    mk_coefficients 0x1.218005191dcc3p-2 0x1.c4c0be1b3fe74p+1 0x1.c362ef7dc05dap-2;
    mk_coefficients 0x1.157e6aaff2fc4p-2 0x1.d85791259411bp+1 0x1.b4a860f076d1p-2;
    mk_coefficients 0x1.09d8d329b6f4p-2 0x1.ed0917cececdap+1 0x1.a61b9f7154b44p-2;
    mk_coefficients 0x1.fd1968adf61e9p-3 0x1.0175693ee7794p+2 0x1.97bdcd7548294p-2;
    mk_coefficients 0x1.e72f3e4081ee8p-3 0x1.0d0a2c00dffb3p+2 0x1.899009c846d8ep-2;
    mk_coefficients 0x1.d1ee7ca15b3f6p-3 0x1.194fca86327aap+2 0x1.7b936f76f0a86p-2;
    mk_coefficients 0x1.bd52aae35f53dp-3 0x1.26548a52eb4d3p+2 0x1.6dc915b87d3c8p-2;
    mk_coefficients 0x1.a9577f6d28d66p-3 0x1.3428298a468fap+2 0x1.60320fd8f6058p-2;
    mk_coefficients 0x1.95f8ddee31509p-3 0x1.42dc0e7e28c43p+2 0x1.52cf6d23be85p-2;
    mk_coefficients 0x1.8332d5702536cp-3 0x1.52837e66f01dap+2 0x1.45a238ce6c7aap-2;
    mk_coefficients 0x1.71019e82c443ap-3 0x1.6333dc85aea28p+2 0x1.38ab79e3f19ep-2;
    mk_coefficients 0x1.5f619980c4339p-3 0x1.7504f333f9de5p+2 0x1.2bec333018868p-2 ].

(** The checks made of a record, and of the records at two successive
    positions. *)
Definition record_ok (c : coefficients) : bool :=
  (0 <? Ka c) && (Ka c <=? Ko c) && (Ko c <=? 1) && (1 <=? Kp c) &&
  (abs (Ka c * Kp c - 1) <=? 0x1p-50).

Definition step_ok (c1 c2 : coefficients) : bool :=
  (Ka c2 <? Ka c1) && (Ko c2 <? Ko c1) && (Kp c1 <? Kp c2).

End b64.

(** The positions of a slider: from its minimum upwards in steps, up to its
    maximum. *)
Definition slider_positions (s : input_slider) : list Z :=
  map (fun k => (slider_min s + Z.of_nat k * slider_step s)%Z)
      (seq 0 (S (Z.to_nat ((slider_max s - slider_min s) / slider_step s)))).

(** ** Basic facts about the runtime fragment *)

Lemma truediv_nonzero (a b : R) :
  b <> 0 -> Py.truediv a b = Py.ret (a / b).
Proof.
  intros Hb. unfold Py.truediv.
  destruct (Req_dec_T b 0) as [E | _]; [contradiction | reflexivity].
Qed.

Lemma truediv_zero (a : R) :
  Py.truediv a 0 = Py.raise Py.ZeroDivisionError.
Proof.
  unfold Py.truediv.
  destruct (Req_dec_T 0 0) as [_ | N]; [reflexivity | now elim N].
Qed.

Lemma radians_neg (x : R) : math.radians (- x) = - math.radians x.
Proof. unfold math.radians. lra. Qed.

Lemma radians_0 : math.radians 0 = 0.
Proof. unfold math.radians. lra. Qed.

Lemma radians_30 : math.radians 30 = PI / 6.
Proof. unfold math.radians. lra. Qed.

Lemma radians_45 : math.radians 45 = PI / 4.
Proof. unfold math.radians. lra. Qed.

Lemma radians_90 : math.radians 90 = PI / 2.
Proof. unfold math.radians. lra. Qed.

Lemma radians_lt (x y : R) : x < y -> math.radians x < math.radians y.
Proof.
  intros Hxy. unfold math.radians.
  apply Rmult_lt_compat_r; [ | exact Hxy].
  pose proof PI_RGT_0. lra.
Qed.

(** Degrees strictly between -90 and 90 land strictly inside the interval on
    which the sine is increasing. *)
Lemma radians_open_quadrants (phi : R) :
  -90 < phi < 90 -> - (PI / 2) < math.radians phi < PI / 2.
Proof.
  intros [Hlo Hhi]. split.
  - replace (- (PI / 2)) with (math.radians (-90)) by (unfold math.radians; lra).
    now apply radians_lt.
  - rewrite <- radians_90. now apply radians_lt.
Qed.

Lemma sin_minus_PI2 : math.sin (- (PI / 2)) = -1.
Proof. unfold math.sin. rewrite sin_neg, sin_PI2. reflexivity. Qed.

Lemma sin_lt_1 (x : R) : - (PI / 2) <= x -> x < PI / 2 -> math.sin x < 1.
Proof.
  intros Hlo Hhi. unfold math.sin. rewrite <- sin_PI2.
  apply sin_increasing_1; lra.
Qed.

Lemma sin_gt_minus_1 (x : R) : - (PI / 2) < x -> x <= PI / 2 -> -1 < math.sin x.
Proof.
  intros Hlo Hhi. rewrite <- sin_minus_PI2. unfold math.sin.
  apply sin_increasing_1; lra.
Qed.


(** ** The two outcomes of the calculator *)

(** Both divisors non-zero: the dictionary is built from the three formulas. *)
Lemma rankine_returns (phi_deg : R) :
  let s := math.sin (math.radians phi_deg) in
  1 + s <> 0 -> 1 - s <> 0 ->
  rankine_earth_pressures phi_deg =
  Py.ret {| Ka := (1 - s) / (1 + s); Kp := (1 + s) / (1 - s); Ko := 1 - s |}.
Proof.
  intros s Hp Hm. unfold rankine_earth_pressures. fold s.
  rewrite (truediv_nonzero _ _ Hp). cbn [Py.bind Py.ret].
  rewrite (truediv_nonzero _ _ Hm). reflexivity.
Qed.

(** A zero divisor in either quotient: the call raises. *)
Lemma rankine_raises (phi_deg : R) :
  let s := math.sin (math.radians phi_deg) in
  1 + s = 0 \/ 1 - s = 0 ->
  rankine_earth_pressures phi_deg = Py.raise Py.ZeroDivisionError.
Proof.
  intros s H. unfold rankine_earth_pressures. fold s.
  destruct H as [Hp | Hm].
  - rewrite Hp, truediv_zero. reflexivity.
  - assert (Hp : 1 + s <> 0) by lra.
    rewrite (truediv_nonzero _ _ Hp). cbn [Py.bind Py.ret].
    rewrite Hm, truediv_zero. reflexivity.
Qed.

(** Inside (-90, 90) degrees the sine is strictly between -1 and 1. *)
Lemma sin_radians_inside (phi : R) :
  -90 < phi < 90 -> -1 < math.sin (math.radians phi) < 1.
Proof.
  intros H. apply radians_open_quadrants in H. destruct H as [Hlo Hhi].
  split; [apply sin_gt_minus_1 | apply sin_lt_1]; lra.
Qed.


(** ** Facts about the display layer *)

Lemma round_half_even_nearest (y : R) (n : Z) :
  IZR n - 1 / 2 < y < IZR n + 1 / 2 -> round_half_even y = n.
Proof.
  intros [Hlo Hhi]. unfold round_half_even, frac_part.
  destruct (Rle_lt_dec (IZR n) y) as [Hge | Hlt].
  - assert (E : n = Int_part y) by (apply Int_part_spec; lra).
    rewrite <- E.
    destruct (Rlt_dec (y - IZR n) (1 / 2)) as [_ | N]; [reflexivity | lra].
  - assert (E : (n - 1)%Z = Int_part y).
    { apply Int_part_spec. rewrite minus_IZR. lra. }
    rewrite <- E. rewrite minus_IZR.
    destruct (Rlt_dec (y - (IZR n - 1)) (1 / 2)) as [L | _]; [lra | ].
    destruct (Rlt_dec (1 / 2) (y - (IZR n - 1))) as [_ | N]; [ | lra].
    apply Z.sub_add.
Qed.

(** A non-negative value within half a ten-thousandth of [m / 10000] is
    shown as [m] ten-thousandths. *)
Lemma format_4f_nearest (x : R) (m : Z) :
  0 <= x ->
  IZR m - 1 / 2 < x * 10000 < IZR m + 1 / 2 ->
  format_4f x = fixed4 false m.
Proof.
  intros Hx Hm. unfold format_4f.
  destruct (Rlt_dec x 0) as [L | _]; [lra | ].
  rewrite Rabs_right by lra.
  now rewrite (round_half_even_nearest _ _ Hm).
Qed.

Example fixed4_3333 : fixed4 false 3333 = "0.3333"%string.
Proof. reflexivity. Qed.

Example fixed4_58284 : fixed4 false 58284 = "5.8284"%string.
Proof. reflexivity. Qed.

Example fixed4_neg0 : fixed4 true 0 = "-0.0000"%string.
Proof. reflexivity. Qed.

(** ** Facts about the two quotients *)

Lemma quotient_between (a b lo hi : R) :
  0 < b -> lo * b < a < hi * b -> lo < a / b < hi.
Proof.
  intros Hb [Hlo Hhi]. unfold Rdiv.
  assert (Hi : 0 < / b) by now apply Rinv_0_lt_compat.
  assert (E : b * / b = 1) by (apply Rinv_r; lra).
  split.
  - replace lo with (lo * b * / b) by (rewrite Rmult_assoc, E; lra).
    now apply Rmult_lt_compat_r.
  - replace hi with (hi * b * / b) by (rewrite Rmult_assoc, E; lra).
    now apply Rmult_lt_compat_r.
Qed.




(** ** Sines of the angles of the worked examples *)

Lemma sin_radians_0 : math.sin (math.radians 0) = 0.
Proof. rewrite radians_0. unfold math.sin. exact sin_0. Qed.

Lemma sin_radians_30 : math.sin (math.radians 30) = 1 / 2.
Proof. rewrite radians_30. unfold math.sin. exact sin_PI6. Qed.

Lemma sin_radians_45 : math.sin (math.radians 45) = 1 / sqrt 2.
Proof. rewrite radians_45. unfold math.sin. exact sin_PI4. Qed.

Lemma sin_radians_90 : math.sin (math.radians 90) = 1.
Proof. rewrite radians_90. unfold math.sin. exact sin_PI2. Qed.

Lemma sin_radians_minus_90 : math.sin (math.radians (-90)) = -1.
Proof.
  replace (-90) with (- (90)) by lra.
  rewrite radians_neg, radians_90. exact sin_minus_PI2.
Qed.

(** Six decimals of [1 / sqrt 2]. *)
Lemma inv_sqrt2_bounds : 0.707106 < 1 / sqrt 2 < 0.707107.
Proof.
  assert (Hpos : 0 < sqrt 2) by (apply sqrt_lt_R0; lra).
  assert (Hsq : sqrt 2 * sqrt 2 = 2) by (apply sqrt_sqrt; lra).
  set (u := 1 / sqrt 2).
  assert (Hu : 0 < u) by (unfold u, Rdiv; rewrite Rmult_1_l; now apply Rinv_0_lt_compat).
  assert (Huu : u * u = 1 / 2).
  { unfold u.
    replace (1 / sqrt 2 * (1 / sqrt 2)) with (1 / (sqrt 2 * sqrt 2)) by (field; lra).
    now rewrite Hsq. }
  split; nra.
Qed.

(** Inside (-90, 90) degrees the call returns a record. *)
Lemma rankine_returns_inside (phi_deg : R) :
  -90 < phi_deg < 90 ->
  exists c : coefficients, rankine_earth_pressures phi_deg = inr c.
Proof.
  intros H. pose proof (sin_radians_inside phi_deg H) as [Hlo Hhi].
  eexists. apply (rankine_returns phi_deg); lra.
Qed.

(** * The contract of the calculator *)

(** C1. For an input whose sine (after conversion to radians, that is
    multiplication by pi/180) is neither 1 nor -1, the call returns one
    record whose fields are Ka = (1 - sin phi) / (1 + sin phi),
    Kp = (1 + sin phi) / (1 - sin phi) and Ko = 1 - sin phi. *)
Theorem rankine_formulas (phi_deg : R) :
  let phi := phi_deg * (PI / 180) in
  Rtrigo_def.sin phi <> 1 ->
  Rtrigo_def.sin phi <> -1 ->
  rankine_earth_pressures phi_deg =
  inr {| Ka := (1 - Rtrigo_def.sin phi) / (1 + Rtrigo_def.sin phi);
         Kp := (1 + Rtrigo_def.sin phi) / (1 - Rtrigo_def.sin phi);
         Ko := 1 - Rtrigo_def.sin phi |}.
Proof.
  intros phi Hne1 Hnem1.
  apply (rankine_returns phi_deg); unfold math.sin, math.radians; fold phi; lra.
Qed.

Lemma rankine_formulas_witness :
  Rtrigo_def.sin (30 * (PI / 180)) <> 1 /\
  Rtrigo_def.sin (30 * (PI / 180)) <> -1 /\
  rankine_earth_pressures 30 =
  inr {| Ka := (1 - Rtrigo_def.sin (30 * (PI / 180))) / (1 + Rtrigo_def.sin (30 * (PI / 180)));
         Kp := (1 + Rtrigo_def.sin (30 * (PI / 180))) / (1 - Rtrigo_def.sin (30 * (PI / 180)));
         Ko := 1 - Rtrigo_def.sin (30 * (PI / 180)) |}.
Proof.
  assert (E : Rtrigo_def.sin (30 * (PI / 180)) = 1 / 2) by exact sin_radians_30.
  assert (H1 : Rtrigo_def.sin (30 * (PI / 180)) <> 1) by (rewrite E; lra).
  assert (H2 : Rtrigo_def.sin (30 * (PI / 180)) <> -1) by (rewrite E; lra).
  split; [exact H1 | split; [exact H2 | ]].
  exact (rankine_formulas 30 H1 H2).
Defined.

(** C2. When the sine of the converted angle is 1 or -1 (as at 90 and at
    -90 degrees) the call raises the division-by-zero exception: the outcome
    is the exception alone, and no record, complete or partial, is
    returned. *)
Theorem rankine_singular_raises (phi_deg : R) :
  math.sin (math.radians phi_deg) = 1 \/ math.sin (math.radians phi_deg) = -1 ->
  rankine_earth_pressures phi_deg = inl Py.ZeroDivisionError /\
  (forall c : coefficients, rankine_earth_pressures phi_deg <> inr c) /\
  ka_value phi_deg = inl Py.ZeroDivisionError /\
  ko_value phi_deg = inl Py.ZeroDivisionError /\
  kp_value phi_deg = inl Py.ZeroDivisionError.
Proof.
  intros H.
  assert (E : rankine_earth_pressures phi_deg = inl Py.ZeroDivisionError).
  { apply (rankine_raises phi_deg). destruct H as [H | H]; rewrite H; [right | left]; lra. }
  unfold ka_value, ko_value, kp_value, get_coefficients. rewrite E.
  repeat split; try reflexivity.
  intros c Hc. discriminate Hc.
Qed.

Lemma rankine_singular_raises_witness :
  (math.sin (math.radians 90) = 1 \/ math.sin (math.radians 90) = -1) /\
  rankine_earth_pressures 90 = inl Py.ZeroDivisionError.
Proof.
  split.
  - left. exact sin_radians_90.
  - exact (proj1 (rankine_singular_raises 90 (or_introl sin_radians_90))).
Defined.

(** The other named singular input, -90 degrees, fails in the first
    quotient. *)
Example rankine_minus_90 :
  rankine_earth_pressures (-90) = inl Py.ZeroDivisionError.
Proof.
  apply (rankine_raises (-90)). left. rewrite sin_radians_minus_90. lra.
Qed.

(** C6. At 0 degrees the call returns Ka = 1, Kp = 1 and Ko = 1, and each
    of the three is displayed as 1.0000. *)
Theorem rankine_at_0 :
  rankine_earth_pressures 0 = inr {| Ka := 1; Kp := 1; Ko := 1 |} /\
  ka_value 0 = inr "1.0000"%string /\
  kp_value 0 = inr "1.0000"%string /\
  ko_value 0 = inr "1.0000"%string.
Proof.
  assert (E : rankine_earth_pressures 0 = inr {| Ka := 1; Kp := 1; Ko := 1 |}).
  { rewrite (rankine_returns 0); rewrite sin_radians_0; [ | lra | lra].
    unfold Py.ret. f_equal. f_equal; lra. }
  assert (F : format_4f 1 = "1.0000"%string).
  { rewrite (format_4f_nearest 1 10000); [reflexivity | lra | lra]. }
  unfold ka_value, kp_value, ko_value, get_coefficients. rewrite E.
  cbn [Py.bind Py.ret Ka Kp Ko]. rewrite F. repeat split.
Qed.

(** C7. At 30 degrees the call returns Ka = 1/3, Kp = 3 and Ko = 1/2,
    displayed as 0.3333, 3.0000 and 0.5000; at 45 degrees it returns values
    within half a ten-thousandth of 0.1716, 5.8284 and 0.2929, which are the
    texts displayed. *)
Theorem rankine_textbook_values :
  rankine_earth_pressures 30 = inr {| Ka := 1 / 3; Kp := 3; Ko := 1 / 2 |} /\
  ka_value 30 = inr "0.3333"%string /\
  kp_value 30 = inr "3.0000"%string /\
  ko_value 30 = inr "0.5000"%string /\
  (exists c : coefficients,
     rankine_earth_pressures 45 = inr c /\
     Rabs (Ka c - 0.1716) < 0.00005 /\
     Rabs (Kp c - 5.8284) < 0.00005 /\
     Rabs (Ko c - 0.2929) < 0.00005) /\
  ka_value 45 = inr "0.1716"%string /\
  kp_value 45 = inr "5.8284"%string /\
  ko_value 45 = inr "0.2929"%string.
Proof.
  assert (E30 : rankine_earth_pressures 30 =
                inr {| Ka := 1 / 3; Kp := 3; Ko := 1 / 2 |}).
  { rewrite (rankine_returns 30); rewrite sin_radians_30; [ | lra | lra].
    unfold Py.ret. f_equal. f_equal; lra. }
  pose proof inv_sqrt2_bounds as [Ulo Uhi].
  set (u := 1 / sqrt 2) in *.
  assert (E45 : rankine_earth_pressures 45 =
                inr {| Ka := (1 - u) / (1 + u); Kp := (1 + u) / (1 - u); Ko := 1 - u |}).
  { rewrite (rankine_returns 45); rewrite sin_radians_45; fold u; [ | lra | lra].
    reflexivity. }
  assert (BKa : 0.17155 < (1 - u) / (1 + u) < 0.17165)
    by (apply quotient_between; lra).
  assert (BKp : 5.82835 < (1 + u) / (1 - u) < 5.82845)
    by (apply quotient_between; lra).
  unfold ka_value, kp_value, ko_value, get_coefficients.
  rewrite E30, E45. cbn [Py.bind Py.ret Ka Kp Ko].
  rewrite (format_4f_nearest (1 / 3) 3333) by lra.
  rewrite (format_4f_nearest 3 30000) by lra.
  rewrite (format_4f_nearest (1 / 2) 5000) by lra.
  rewrite (format_4f_nearest ((1 - u) / (1 + u)) 1716) by lra.
  rewrite (format_4f_nearest ((1 + u) / (1 - u)) 58284) by lra.
  rewrite (format_4f_nearest (1 - u) 2929) by lra.
  repeat (split; [reflexivity | ]).
  split; [ | repeat split].
  eexists. split; [reflexivity | ]. cbn [Ka Kp Ko].
  repeat split; apply Rabs_def1; lra.
Qed.

(** The slider's whole range lies well inside the angles at which the call
    returns. *)
Corollary rankine_defined_on_slider (phi_deg : R) :
  0 <= phi_deg <= 45 ->
  exists c : coefficients, rankine_earth_pressures phi_deg = inr c.
Proof.
  intros H. apply rankine_returns_inside. lra.
Qed.

(** * Beyond the contract: the calculator on every input *)

(** What a returned record tells about the sine it was computed from. *)
Lemma rankine_inversion (phi_deg : R) (c : coefficients) :
  rankine_earth_pressures phi_deg = inr c ->
  let s := math.sin (math.radians phi_deg) in
  -1 < s < 1 /\
  c = {| Ka := (1 - s) / (1 + s); Kp := (1 + s) / (1 - s); Ko := 1 - s |}.
Proof.
  intros E s.
  pose proof (SIN_bound (math.radians phi_deg)) as [Blo Bhi].
  change (Rtrigo_def.sin (math.radians phi_deg)) with s in Blo, Bhi.
  destruct (Req_dec_T (1 + s) 0) as [Zp | Np].
  { rewrite (rankine_raises phi_deg (or_introl Zp)) in E. discriminate E. }
  destruct (Req_dec_T (1 - s) 0) as [Zm | Nm].
  { rewrite (rankine_raises phi_deg (or_intror Zm)) in E. discriminate E. }
  rewrite (rankine_returns phi_deg Np Nm) in E.
  injection E as E. split; [lra | now symmetry].
Qed.

Lemma rankine_30 :
  rankine_earth_pressures 30 = inr {| Ka := 1 / 3; Kp := 3; Ko := 1 / 2 |}.
Proof.
  rewrite (rankine_returns 30); rewrite sin_radians_30; [ | lra | lra].
  unfold Py.ret. f_equal. f_equal; lra.
Qed.

(** * Beyond the contract: what the page shows *)

Lemma Rabs_le_between (a b : R) : Rabs a <= b -> - b <= a <= b.
Proof. unfold Rabs. destruct (Rcase_abs a); lra. Qed.

(** Rounding moves a value by at most one half. *)
Lemma round_half_even_error (y : R) :
  Rabs (IZR (round_half_even y) - y) <= 1 / 2.
Proof.
  unfold round_half_even, frac_part.
  pose proof (base_Int_part y) as [Hlo Hhi].
  set (n := Int_part y) in *.
  destruct (Rlt_dec (y - IZR n) (1 / 2)) as [L | NL].
  - apply Rabs_le. lra.
  - assert (B : Rabs (IZR (n + 1) - y) <= 1 / 2)
      by (rewrite plus_IZR; apply Rabs_le; lra).
    destruct (Rlt_dec (1 / 2) (y - IZR n)) as [G | NG]; [exact B | ].
    destruct (Z.even n); [ | exact B].
    apply Rabs_le. lra.
Qed.

Lemma decimal_digit_length (d : Z) :
  (0 <= d <= 9)%Z -> String.length (decimal d) = 1%nat.
Proof.
  intros H.
  assert (C : d = 0%Z \/ d = 1%Z \/ d = 2%Z \/ d = 3%Z \/ d = 4%Z \/
              d = 5%Z \/ d = 6%Z \/ d = 7%Z \/ d = 8%Z \/ d = 9%Z) by lia.
  repeat (destruct C as [-> | C]; [reflexivity | ]). now subst d.
Qed.

Lemma string_length_append (s t : string) :
  String.length (s ++ t) = (String.length s + String.length t)%nat.
Proof. induction s as [ | a s IH]; cbn; [reflexivity | now rewrite IH]. Qed.

(** Below one hundred thousand ten-thousandths the text is one digit, the
    point and four digits. *)
Lemma fixed4_length (m : Z) :
  (0 <= m < 100000)%Z -> String.length (fixed4 false m) = 6%nat.
Proof.
  intros H. unfold fixed4.
  rewrite !string_length_append.
  rewrite !decimal_digit_length.
  - reflexivity.
  - pose proof (Z.mod_pos_bound m 10). lia.
  - pose proof (Z.mod_pos_bound (m / 10) 10). lia.
  - pose proof (Z.mod_pos_bound (m / 100) 10). lia.
  - pose proof (Z.mod_pos_bound (m / 1000) 10). lia.
  - split; [apply Z.div_pos; lia | ].
    assert (m / 10000 < 10)%Z by (apply Z.div_lt_upper_bound; lia). lia.
Qed.

(** The text of a non-negative value: unsigned, and the number it spells is
    within half a ten-thousandth of the value. *)
Lemma format_4f_nonneg (x : R) :
  0 <= x ->
  exists m : Z,
    format_4f x = fixed4 false m /\ (0 <= m)%Z /\
    Rabs (IZR m / 10000 - x) <= 0.00005.
Proof.
  intros Hx. exists (round_half_even (Rabs x * 10000)).
  unfold format_4f.
  destruct (Rlt_dec x 0) as [L | _]; [lra | ].
  rewrite Rabs_right by lra.
  pose proof (round_half_even_error (x * 10000)) as B.
  apply Rabs_le_between in B.
  split; [reflexivity | split].
  - assert (Hm : IZR (-1) < IZR (round_half_even (x * 10000))) by lra.
    apply lt_IZR in Hm. lia.
  - apply Rabs_le. lra.
Qed.

Lemma format_4f_length (x : R) :
  0 <= x -> x < 9.9999 -> String.length (format_4f x) = 6%nat.
Proof.
  intros Hx Hlt. destruct (format_4f_nonneg x Hx) as [m [E [Hm B]]].
  rewrite E. apply fixed4_length. split; [exact Hm | ].
  apply Rabs_le_between in B. apply lt_IZR. lra.
Qed.

(** On the slider's range, from 0 to 45 degrees, the sine runs from 0 to
    [1 / sqrt 2]. *)
Lemma sin_radians_slider (x : R) :
  0 <= x <= 45 -> 0 <= math.sin (math.radians x) <= 1 / sqrt 2.
Proof.
  intros [Hlo Hhi]. pose proof PI_RGT_0 as HPI.
  assert (B : 0 <= math.radians x <= PI / 4).
  { unfold math.radians. split; nra. }
  split.
  - rewrite <- sin_0. unfold math.sin. apply sin_incr_1; lra.
  - rewrite <- sin_PI4. unfold math.sin. apply sin_incr_1; lra.
Qed.

Lemma rankine_on_slider (x : R) :
  0 <= x <= 45 ->
  exists c : coefficients,
    rankine_earth_pressures x = inr c /\
    0.1715 < Ka c <= 1 /\ 1 <= Kp c < 5.8285 /\ 0.2928 < Ko c <= 1.
Proof.
  intros H. pose proof (sin_radians_slider x H) as [Hlo Hhi].
  pose proof inv_sqrt2_bounds as [_ Uhi].
  set (s := math.sin (math.radians x)) in *.
  eexists. split; [apply (rankine_returns x); fold s; lra | ].
  cbn [Ka Kp Ko]. fold s.
  assert (Hi : 0 < / (1 + s)) by (apply Rinv_0_lt_compat; lra).
  assert (Hj : 0 < / (1 - s)) by (apply Rinv_0_lt_compat; lra).
  assert (Ei : (1 + s) * / (1 + s) = 1) by (apply Rinv_r; lra).
  assert (Ej : (1 - s) * / (1 - s) = 1) by (apply Rinv_r; lra).
  unfold Rdiv. repeat split; try lra; nra.
Qed.

Lemma str_int_inj (a b : Z) : str_int a = str_int b -> a = b.
Proof.
  assert (N : forall n : Z, NilZero.int_of_string (str_int n) = Some (Z.to_int n)).
  { intros n. unfold str_int. apply NilZero.isi.
    - destruct n as [ | p | p]; cbn; try discriminate.
      intros E. injection E as E. now apply (DecimalPos.Unsigned.to_uint_nonnil p).
    - destruct n as [ | p | p]; cbn; try discriminate.
      intros E. injection E as E. now apply (DecimalPos.Unsigned.to_uint_nonnil p). }
  intros E. apply DecimalZ.to_int_inj.
  pose proof (N a) as Ha. rewrite E, (N b) in Ha. now injection Ha.
Qed.

Lemma append_prefix_inj (p s t : string) :
  (p ++ s = p ++ t)%string -> s = t.
Proof.
  induction p as [ | a p IH]; cbn; intros E; [exact E | ].
  injection E as E. now apply IH.
Qed.

Lemma append_suffix_inj (u s t : string) :
  (s ++ u = t ++ u)%string -> s = t.
Proof.
  intros E.
  assert (L : String.length s = String.length t).
  { apply (f_equal String.length) in E. rewrite !string_length_append in E. lia. }
  revert t E L. induction s as [ | a s IH]; intros [ | b t] E L;
    cbn in L; try discriminate L; [reflexivity | ].
  cbn in E. injection E as -> E. f_equal. apply IH; [exact E | lia].
Qed.

(** X7. Whenever the calculator returns, each of the three value boxes shows
    an unsigned decimal with four places that is within half a
    ten-thousandth of the coefficient it displays. *)
Theorem value_boxes_accuracy (phi : R) (c : coefficients) :
  rankine_earth_pressures phi = inr c ->
  exists ma mo mp : Z,
    ka_value phi = inr (fixed4 false ma) /\
    ko_value phi = inr (fixed4 false mo) /\
    kp_value phi = inr (fixed4 false mp) /\
    Rabs (IZR ma / 10000 - Ka c) <= 0.00005 /\
    Rabs (IZR mo / 10000 - Ko c) <= 0.00005 /\
    Rabs (IZR mp / 10000 - Kp c) <= 0.00005.
Proof.
  intros E. pose proof (rankine_inversion phi c E) as [[Hlo Hhi] Hc].
  set (s := math.sin (math.radians phi)) in *.
  assert (Pa : 0 <= Ka c) by (rewrite Hc; cbn [Ka]; apply Rlt_le, Rdiv_lt_0_compat; lra).
  assert (Po : 0 <= Ko c) by (rewrite Hc; cbn [Ko]; lra).
  assert (Pp : 0 <= Kp c) by (rewrite Hc; cbn [Kp]; apply Rlt_le, Rdiv_lt_0_compat; lra).
  destruct (format_4f_nonneg _ Pa) as [ma [Ea [_ Ba]]].
  destruct (format_4f_nonneg _ Po) as [mo [Eo [_ Bo]]].
  destruct (format_4f_nonneg _ Pp) as [mp [Ep [_ Bp]]].
  exists ma, mo, mp.
  unfold ka_value, ko_value, kp_value, get_coefficients. rewrite E.
  cbn [Py.bind Py.ret]. rewrite Ea, Eo, Ep. repeat split; assumption.
Qed.

Lemma value_boxes_accuracy_witness :
  rankine_earth_pressures 30 = inr {| Ka := 1 / 3; Kp := 3; Ko := 1 / 2 |} /\
  exists ma mo mp : Z,
    ka_value 30 = inr (fixed4 false ma) /\
    ko_value 30 = inr (fixed4 false mo) /\
    kp_value 30 = inr (fixed4 false mp) /\
    Rabs (IZR ma / 10000 - 1 / 3) <= 0.00005 /\
    Rabs (IZR mo / 10000 - 1 / 2) <= 0.00005 /\
    Rabs (IZR mp / 10000 - 3) <= 0.00005.
Proof.
  split; [exact rankine_30 | ].
  exact (value_boxes_accuracy 30 _ rankine_30).
Defined.

(** X8. At every position of the slider, from its minimum 0 to its maximum
    45, none of the three value boxes raises, and each shows a text of
    exactly six characters (one digit, the point, four digits). *)
Theorem slider_value_boxes (p : Z) :
  (slider_min phi_slider <= p <= slider_max phi_slider)%Z ->
  exists ta to tp : string,
    ka_value (IZR p) = inr ta /\
    ko_value (IZR p) = inr to /\
    kp_value (IZR p) = inr tp /\
    String.length ta = 6%nat /\
    String.length to = 6%nat /\
    String.length tp = 6%nat.
Proof.
  cbn [slider_min slider_max phi_slider]. intros [Hlo Hhi].
  apply IZR_le in Hlo, Hhi.
  destruct (rankine_on_slider (IZR p) (conj Hlo Hhi)) as [c [E [Ba [Bp Bo]]]].
  unfold ka_value, ko_value, kp_value, get_coefficients. rewrite E.
  cbn [Py.bind Py.ret]. do 3 eexists.
  repeat (split; [reflexivity | ]).
  repeat split; apply format_4f_length; lra.
Qed.

Lemma slider_value_boxes_witness :
  (slider_min phi_slider <= slider_value phi_slider <= slider_max phi_slider)%Z /\
  exists ta to tp : string,
    ka_value 30 = inr ta /\
    ko_value 30 = inr to /\
    kp_value 30 = inr tp /\
    String.length ta = 6%nat /\
    String.length to = 6%nat /\
    String.length tp = 6%nat.
Proof.
  assert (H : (slider_min phi_slider <= slider_value phi_slider <= slider_max phi_slider)%Z)
    by (cbn; lia).
  split; [exact H | exact (slider_value_boxes (slider_value phi_slider) H)].
Defined.

(** X9. For every angle in the slider's range, ends included, the call
    returns with 0.1715 < Ka <= 1, 1 <= Kp < 5.8285 and 0.2928 < Ko <= 1. *)
Theorem slider_range_bounds (x : R) :
  IZR (slider_min phi_slider) <= x <= IZR (slider_max phi_slider) ->
  exists c : coefficients,
    rankine_earth_pressures x = inr c /\
    0.1715 < Ka c <= 1 /\ 1 <= Kp c < 5.8285 /\ 0.2928 < Ko c <= 1.
Proof.
  cbn [slider_min slider_max phi_slider]. exact (rankine_on_slider x).
Qed.

Lemma slider_range_bounds_witness :
  IZR (slider_min phi_slider) <= 45 <= IZR (slider_max phi_slider) /\
  exists c : coefficients,
    rankine_earth_pressures 45 = inr c /\
    0.1715 < Ka c <= 1 /\ 1 <= Kp c < 5.8285 /\ 0.2928 < Ko c <= 1.
Proof.
  assert (H : IZR (slider_min phi_slider) <= 45 <= IZR (slider_max phi_slider))
    by (cbn [slider_min slider_max phi_slider]; lra).
  split; [exact H | exact (slider_range_bounds 45 H)].
Defined.

(** X10. The label determines the slider value: two integer inputs with
    the same label are equal. *)
Theorem explanation_injective (a b : Z) :
  explanation a = explanation b -> a = b.
Proof.
  unfold explanation. intros E.
  apply append_prefix_inj, append_suffix_inj in E.
  now apply str_int_inj.
Qed.

Lemma explanation_injective_witness :
  explanation 30 = explanation 30 /\ 30%Z = 30%Z.
Proof.
  split; [reflexivity | exact (explanation_injective 30 30 eq_refl)].
Defined.

Example explanation_30 :
  explanation 30 = "Results for soil with φ = 30°:"%string.
Proof. reflexivity. Qed.

(** * The contract under the machine's arithmetic

    Five statements of the contract hold of the exact formulas but not of
    the values the interpreter computes.  Each is shown to fail by running
    the binary64 calculator at one input, and is then stated in the form
    that holds of both. *)
















(** The binary64 calculator at the two ends of the amended intervals, the
    values nearest to 0.0001 and to 89.9999 degrees. *)
Example b64_rankine_at_low_margin :
  b64.rankine_earth_pressures 0x1.a36e2eb1c432dp-14 =
  inr {| b64.Ka := 0x1.ffff8adf862b7p-1; b64.Kp := 0x1.00003a904a5p+0;
         b64.Ko := 0x1.ffffc56fbc62ep-1 |}.
Proof. vm_compute. reflexivity. Qed.

Example b64_rankine_at_high_margin :
  b64.rankine_earth_pressures 0x1.67ffe5c91d14ep+6 =
  inr {| b64.Ka := 0x1.acb800000167p-41; b64.Kp := 0x1.31bac53d254f3p+40;
         b64.Ko := 0x1.acb8p-40 |}.
Proof. vm_compute. reflexivity. Qed.

(** * A call, as the interpreter runs it *)

(** With the imports intact, a call on a number runs to the outcome of the
    pure model and leaves the state as it found it. *)
Lemma call_function_refines (s : frame.state) (arg : frame.value) (phi : R) :
  frame.imports_intact s ->
  frame.number arg = Some phi ->
  frame.call_function arg s = (frame.outcome (rankine_earth_pressures phi), s).
Proof.
  destruct s as [g md l]. intros [Hm [Hr Hs]] Hn. cbn in Hm, Hr, Hs.
  destruct arg as [n | x | | b | items]; cbn in Hn; try discriminate Hn;
    injection Hn as <-.
  all: unfold frame.call_function, frame.rankine_earth_pressures, frame.math_call,
    frame.bind, frame.load_global, frame.load_attr, frame.load_fast,
    frame.store_fast, frame.true_divide, frame.binary_add,
    frame.binary_subtract, frame.call, frame.as_float, frame.ret, frame.raise.
  all: cbn; repeat (first [rewrite Hm | rewrite Hr | rewrite Hs]; cbn).
  all: unfold rankine_earth_pressures, Py.truediv.
  all: match goal with
       | |- context [Req_dec_T (1 + ?t) 0] =>
           destruct (Req_dec_T (1 + t) 0) as [Zp | Np]; cbn; [reflexivity | ];
           repeat (first [rewrite Hm | rewrite Hr | rewrite Hs]; cbn);
           destruct (Req_dec_T (1 - t) 0) as [Zm | Nm]; cbn; [reflexivity | ];
           repeat (first [rewrite Hm | rewrite Hr | rewrite Hs]; cbn);
           reflexivity
       end.
Qed.

Lemma run_calls_refines (s : frame.state) (phis : list R) :
  frame.imports_intact s ->
  frame.run_calls (map frame.VFloat phis) s =
  (map (fun phi => frame.outcome (rankine_earth_pressures phi)) phis, s).
Proof.
  intros H. induction phis as [ | phi phis IH]; cbn; [reflexivity | ].
  rewrite (call_function_refines s (frame.VFloat phi) phi H eq_refl), IH.
  reflexivity.
Qed.

(** C9. In any interpreter state in which [import math] is intact, a call
    runs to the outcome that the number passed alone determines and changes
    neither the globals, nor the [math] module, nor the caller's locals.
    So a sequence of calls gives each angle its own outcome and restores
    the state, and two calls on equal numbers give equal outcomes whatever
    calls came before either of them and in whatever states they began. *)
Theorem rankine_call_pure
  (s1 s2 : frame.state) (arg1 arg2 : frame.value) (phi1 phi2 : R)
  (earlier1 earlier2 : list R) :
  frame.imports_intact s1 -> frame.imports_intact s2 ->
  frame.number arg1 = Some phi1 -> frame.number arg2 = Some phi2 ->
  phi1 = phi2 ->
  frame.call_function arg1 s1 =
    (frame.outcome (rankine_earth_pressures phi1), s1) /\
  frame.run_calls (map frame.VFloat earlier1) s1 =
    (map (fun phi => frame.outcome (rankine_earth_pressures phi)) earlier1, s1) /\
  fst (frame.call_function arg1
         (snd (frame.run_calls (map frame.VFloat earlier1) s1))) =
  fst (frame.call_function arg2
         (snd (frame.run_calls (map frame.VFloat earlier2) s2))).
Proof.
  intros H1 H2 N1 N2 E. subst phi2.
  split; [now apply call_function_refines | ].
  split; [now apply run_calls_refines | ].
  rewrite (run_calls_refines s1 earlier1 H1), (run_calls_refines s2 earlier2 H2).
  cbn [snd].
  now rewrite (call_function_refines s1 arg1 phi1 H1 N1),
              (call_function_refines s2 arg2 phi1 H2 N2).
Qed.

Lemma rankine_call_pure_witness :
  frame.imports_intact frame.after_import /\
  frame.imports_intact frame.in_session /\
  frame.number (frame.VInt 30) = Some 30 /\
  frame.number (frame.VFloat 30) = Some 30 /\ 30 = 30 /\
  frame.call_function (frame.VInt 30) frame.after_import =
    (frame.outcome (rankine_earth_pressures 30), frame.after_import) /\
  fst (frame.call_function (frame.VInt 30)
         (snd (frame.run_calls (map frame.VFloat [0; 45]) frame.after_import))) =
  fst (frame.call_function (frame.VFloat 30)
         (snd (frame.run_calls (map frame.VFloat [90]) frame.in_session))).
Proof.
  assert (H1 : frame.imports_intact frame.after_import) by (repeat split).
  assert (H2 : frame.imports_intact frame.in_session) by (repeat split).
  assert (N1 : frame.number (frame.VInt 30) = Some 30) by reflexivity.
  assert (N2 : frame.number (frame.VFloat 30) = Some 30) by reflexivity.
  repeat (split; [first [assumption | reflexivity] | ]).
  pose proof (rankine_call_pure frame.after_import frame.in_session
                (frame.VInt 30) (frame.VFloat 30) 30 30
                [0; 45] [90] H1 H2 N1 N2 eq_refl) as [A [_ B]].
  split; [exact A | exact B].
Defined.

(** Without the import the same call raises: the outcome does depend on
    the state through the name [math]. *)
Example call_function_without_import :
  fst (frame.call_function (frame.VFloat 30)
         {| frame.globals := []; frame.math_dict := []; frame.locals := [] |}) =
  inl frame.NameError.
Proof. reflexivity. Qed.

(** * Beyond the contract: the coefficients away from the singular angles *)

(** X2. Whenever the call returns, at any angle, Ka and Kp are positive and
    Ko is positive and at most 2. *)
Theorem rankine_returned_signs (phi_deg : R) (c : coefficients) :
  rankine_earth_pressures phi_deg = inr c ->
  0 < Ka c /\ 0 < Kp c /\ 0 < Ko c <= 2.
Proof.
  intros E. apply rankine_inversion in E. cbv zeta in E.
  destruct E as [[Hlo Hhi] ->]. cbn [Ka Kp Ko].
  split; [apply Rdiv_lt_0_compat; lra | ].
  split; [apply Rdiv_lt_0_compat; lra | lra].
Qed.

Lemma rankine_returned_signs_witness :
  rankine_earth_pressures 30 = inr {| Ka := 1 / 3; Kp := 3; Ko := 1 / 2 |} /\
  0 < 1 / 3 /\ 0 < 3 /\ 0 < 1 / 2 <= 2.
Proof.
  split; [exact rankine_30 | ].
  exact (rankine_returned_signs 30 _ rankine_30).
Defined.





(** * Beyond the contract: the binary64 calculator on the slider *)

Lemma slider_positions_phi :
  slider_positions phi_slider = map Z.of_nat (seq 0 46).
Proof. reflexivity. Qed.

(** The table is what the binary64 calculator computes. *)
Lemma slider_table_computed :
  map (fun p => b64.rankine_earth_pressures (b64.float_of_int p))
      (slider_positions phi_slider) =
  map inr b64.slider_table.
Proof. vm_compute. reflexivity. Qed.

Lemma map_eq_nth {A B : Type} (f : A -> B) (l : list A) (l' : list B)
  (k : nat) (a : A) (b : B) :
  map f l = l' -> (k < length l)%nat -> f (nth k l a) = nth k l' b.
Proof.
  intros <- Hk.
  rewrite (nth_indep (map f l) b (f a)) by (rewrite length_map; exact Hk).
  symmetry. apply map_nth.
Qed.

Lemma slider_table_entry (k : nat) :
  (k < 46)%nat ->
  b64.rankine_earth_pressures (b64.float_of_int (Z.of_nat k)) =
  inr (nth k b64.slider_table (b64.mk_coefficients 0 0 0)).
Proof.
  intros Hk.
  pose proof (map_eq_nth _ _ _ k 0%Z (inr (b64.mk_coefficients 0 0 0))
                slider_table_computed) as T.
  rewrite slider_positions_phi in T.
  rewrite length_map, length_seq in T. specialize (T Hk).
  change 0%Z with (Z.of_nat 0) in T at 1.
  rewrite (map_nth Z.of_nat) in T.
  rewrite seq_nth in T by exact Hk. cbn [Nat.add] in T.
  rewrite T. apply (map_nth (@inr b64.exn b64.coefficients)).
Qed.

(** X11. In binary64, at every position of the slider the call returns the
    record of the table, with 0 < Ka <= Ko <= 1 <= Kp and with the product
    Ka Kp within 2^-50 of 1. *)
Theorem slider_records_binary64 (k : nat) :
  (k < 46)%nat ->
  exists c : b64.coefficients,
    b64.rankine_earth_pressures (b64.float_of_int (Z.of_nat k)) = inr c /\
    (0 <? b64.Ka c)%float = true /\
    (b64.Ka c <=? b64.Ko c)%float = true /\
    (b64.Ko c <=? 1)%float = true /\
    (1 <=? b64.Kp c)%float = true /\
    (abs (b64.Ka c * b64.Kp c - 1) <=? 0x1p-50)%float = true.
Proof.
  intros Hk. eexists. split; [exact (slider_table_entry k Hk) | ].
  assert (A : forallb b64.record_ok b64.slider_table = true)
    by (vm_compute; reflexivity).
  rewrite forallb_forall in A.
  assert (I : In (nth k b64.slider_table (b64.mk_coefficients 0 0 0)) b64.slider_table)
    by (apply nth_In; exact Hk).
  apply A in I. unfold b64.record_ok in I.
  rewrite !Bool.andb_true_iff in I. tauto.
Qed.

Lemma slider_records_binary64_witness :
  (30 < 46)%nat /\
  exists c : b64.coefficients,
    b64.rankine_earth_pressures (b64.float_of_int (Z.of_nat 30)) = inr c /\
    (0 <? b64.Ka c)%float = true /\
    (b64.Ka c <=? b64.Ko c)%float = true /\
    (b64.Ko c <=? 1)%float = true /\
    (1 <=? b64.Kp c)%float = true /\
    (abs (b64.Ka c * b64.Kp c - 1) <=? 0x1p-50)%float = true.
Proof.
  assert (H : (30 < 46)%nat) by lia.
  split; [exact H | exact (slider_records_binary64 30 H)].
Defined.

(** X12. In binary64, from each position of the slider to the next, Ka and
    Ko strictly decrease and Kp strictly increases. *)
Theorem slider_steps_binary64 (k : nat) :
  (S k < 46)%nat ->
  exists c1 c2 : b64.coefficients,
    b64.rankine_earth_pressures (b64.float_of_int (Z.of_nat k)) = inr c1 /\
    b64.rankine_earth_pressures (b64.float_of_int (Z.of_nat (S k))) = inr c2 /\
    (b64.Ka c2 <? b64.Ka c1)%float = true /\
    (b64.Ko c2 <? b64.Ko c1)%float = true /\
    (b64.Kp c1 <? b64.Kp c2)%float = true.
Proof.
  intros Hk.
  assert (Hk' : (k < 46)%nat) by lia.
  do 2 eexists.
  split; [exact (slider_table_entry k Hk') | ].
  split; [exact (slider_table_entry (S k) Hk) | ].
  assert (A : forallb (fun n => b64.step_ok
                         (nth n b64.slider_table (b64.mk_coefficients 0 0 0))
                         (nth (S n) b64.slider_table (b64.mk_coefficients 0 0 0)))
                      (seq 0 45) = true)
    by (vm_compute; reflexivity).
  rewrite forallb_forall in A.
  assert (I : In k (seq 0 45)) by (apply in_seq; lia).
  apply A in I. unfold b64.step_ok in I.
  rewrite !Bool.andb_true_iff in I. tauto.
Qed.

Lemma slider_steps_binary64_witness :
  (S 29 < 46)%nat /\
  exists c1 c2 : b64.coefficients,
    b64.rankine_earth_pressures (b64.float_of_int (Z.of_nat 29)) = inr c1 /\
    b64.rankine_earth_pressures (b64.float_of_int (Z.of_nat (S 29))) = inr c2 /\
    (b64.Ka c2 <? b64.Ka c1)%float = true /\
    (b64.Ko c2 <? b64.Ko c1)%float = true /\
    (b64.Kp c1 <? b64.Kp c2)%float = true.
Proof.
  assert (H : (S 29 < 46)%nat) by lia.
  split; [exact H | exact (slider_steps_binary64 29 H)].
Defined.
